(** * AI-Sentinel ML service: the inference and ensembling handlers

    A shallow embedding of [services/ml-service/app/main.py]: the two POST
    handlers [predict_disaster] and [analyze_image], the preprocessing
    pipeline [transform], the label tables and the Redis write.

    The handlers are Python coroutines that read a global Redis client, a
    logger and the clock, and that raise exceptions.  They are modelled as
    functions from a [World] (Redis, log, clock) to an outcome and a new
    [World].  PIL, torchvision, torch and the float arithmetic are
    collaborators of the handlers and are taken as a [Runtime] record; every
    theorem holds for every runtime. *)

From Stdlib Require Import ZArith List String Ascii.
From Stdlib.Strings Require Import Byte.
From stdpp Require Import base option list gmap strings pretty.

Local Open Scope string_scope.

(** ** Python exceptions *)

(** An instance of a class derived from [Exception]; [py_str] is [str(e)]. *)
Record PyExc := mkExc { exc_class : string; exc_msg : string }.

Definition py_str (e : PyExc) : string := exc_msg e.

Inductive Res (A : Type) : Type :=
| Ok (a : A)
| Raise (e : PyExc).
Arguments Ok {A} a.
Arguments Raise {A} e.

(** ** The world the handlers act on *)

Inductive LogLevel := INFO | WARNING | ERROR.

(** [redis_fault] is [Some e] when the Redis server cannot be reached: every
    command then raises [e].  [redis_db] maps a key to its TTL in seconds and
    its value.  [utcnow] is what [datetime.utcnow().isoformat()] reads. *)
Record World := mkWorld {
  redis_fault : option PyExc;
  redis_db : gmap string (Z * string);
  log : list (LogLevel * string);
  utcnow : string
}.

(** Computations of a [try] body: state passing with exceptions.  The state
    written before an exception is raised is kept. *)
Definition M (A : Type) : Type := World -> Res A * World.

Definition ret {A} (a : A) : M A := fun w => (Ok a, w).

Definition raise {A} (e : PyExc) : M A := fun w => (Raise e, w).

Definition bind {A B} (m : M A) (k : A -> M B) : M B :=
  fun w => match m w with
           | (Ok a, w') => k a w'
           | (Raise e, w') => (Raise e, w')
           end.

Definition lift {A} (r : Res A) : M A := fun w => (r, w).

Notation "'let!' x ':=' m 'in' k" := (bind m (fun x => k))
  (at level 10, x pattern, m at level 100, k at level 200).

Definition logger_write (lvl : LogLevel) (msg : string) (w : World) : World :=
  {| redis_fault := redis_fault w; redis_db := redis_db w;
     log := log w ++ [(lvl, msg)]; utcnow := utcnow w |}.

Definition logger_info (msg : string) : M unit :=
  fun w => (Ok tt, logger_write INFO msg w).

(** [redis_client.setex(name, time, value)] *)
Definition redis_setex (name : string) (time : Z) (value : string) : M unit :=
  fun w => match redis_fault w with
           | Some e => (Raise e, w)
           | None => (Ok tt,
                      {| redis_fault := None;
                         redis_db := <[name := (time, value)]> (redis_db w);
                         log := log w; utcnow := utcnow w |})
           end.

Definition datetime_utcnow_isoformat : M string := fun w => (Ok (utcnow w), w).

(** What a handler hands back to the framework: the returned value, an
    [HTTPException] it raised, or any other exception that escaped it. *)
Inductive Outcome (A : Type) : Type :=
| Returned (a : A)
| HTTPException (status_code : Z) (detail : string)
| Unhandled (e : PyExc).
Arguments Returned {A} a.
Arguments HTTPException {A} status_code detail.
Arguments Unhandled {A} e.

Definition returned_value {A} (o : Outcome A) : option A :=
  match o with Returned a => Some a | _ => None end.

(** [try: body / except Exception as e: logger.error(f"<what>: {str(e)}");
    raise HTTPException(status_code=400, detail=str(e))] *)
Definition try_except_400 {A} (what : string) (body : M A)
  : World -> Outcome A * World :=
  fun w => match body w with
           | (Ok a, w') => (Returned a, w')
           | (Raise e, w') =>
               (HTTPException 400%Z (py_str e),
                logger_write ERROR (what +:+ ": " +:+ py_str e) w')
           end.

(** ** Python lists and dicts *)

Definition IndexError : PyExc := mkExc "IndexError" "list index out of range".

(** [l[i]] for a list [l] and [i >= 0] *)
Definition py_getitem {A} (l : list A) (i : nat) : Res A :=
  match l !! i with
  | Some a => Ok a
  | None => Raise IndexError
  end.

(** A dict with string keys, in insertion order.  [d[k] = v] keeps the
    position of a key that is already present. *)
Fixpoint dict_set {V} (d : list (string * V)) (k : string) (v : V)
  : list (string * V) :=
  match d with
  | [] => [(k, v)]
  | (k', v') :: d' =>
      if String.eqb k' k then (k', v) :: d' else (k', v') :: dict_set d' k v
  end.

(** ** Label tables *)

Definition CLASS_LABELS : list string :=
  ["No Damage"; "Minor Damage"; "Major Damage"; "Destroyed"; "Unknown"].

Definition SEVERITY_MAPPING : gmap nat string :=
  <[0 := "low"]> (<[1 := "medium"]> (<[2 := "high"]>
  (<[3 := "critical"]> (<[4 := "unknown"]> ∅)))).

(** [SEVERITY_MAPPING[k]]; [str(KeyError(k))] is the repr of the key. *)
Definition severity_of (k : nat) : Res string :=
  match SEVERITY_MAPPING !! k with
  | Some s => Ok s
  | None => Raise (mkExc "KeyError" (pretty k))
  end.

(** ** Images and tensors *)

(** A decoded RGB image: its size and the value (0..255) of channel [c] of
    the pixel at column [x], row [y]. *)
Record Image := mkImage {
  width : nat;
  height : nat;
  pixel : nat -> nat -> nat -> Z
}.

Inductive Resampling := BILINEAR | BICUBIC.

Section Service.

(** The float type of torch and Python, left abstract. *)
Context {F : Type}.

(** A tensor: its shape and its entry at a multi-index.  Entries at indices
    outside the shape are never read; where one has to be given it is nan. *)
Record Tensor := mkTensor {
  shape : list nat;
  entry : list nat -> F
}.

(** The libraries the handlers call. *)
Record Runtime := mkRuntime {
  (** [Image.open(io.BytesIO(contents)).convert("RGB")] *)
  image_open : list byte -> Res Image;
  (** the pixels PIL computes when it resamples an image to a width and a
      height with a filter *)
  resample : Resampling -> Image -> nat -> nat -> nat -> nat -> nat -> Z;
  float_of_Z : Z -> F;
  (** a Python float literal *)
  float_lit : string -> F;
  fsub : F -> F -> F;
  fdiv : F -> F -> F;
  (** [a > b] in the order torch reduces with *)
  fgt : F -> F -> bool;
  float_nan : F;
  (** [repr] of a float, as [json.dumps] writes it *)
  float_repr : F -> string;
  (** the logits the network in [eval] mode computes for one sample *)
  forward : Tensor -> Res (list F);
  (** softmax of one row of logits *)
  softmax_row : list F -> list F
}.

Variable rt : Runtime.

(** [Image.resize((w, h))]; PIL's default filter for RGB images. *)
Definition image_resize (im : Image) (w h : nat) : Image :=
  {| width := w; height := h; pixel := resample rt BICUBIC im w h |}.

(** [transforms.Resize((h, w))]; torchvision's default is bilinear. *)
Definition transforms_Resize (h w : nat) (im : Image) : Image :=
  {| width := w; height := h; pixel := resample rt BILINEAR im w h |}.

(** [transforms.ToTensor()]: channels first, bytes scaled by 255. *)
Definition transforms_ToTensor (im : Image) : Tensor :=
  {| shape := [3; height im; width im];
     entry := fun idx =>
       match idx with
       | [c; y; x] =>
           fdiv rt (float_of_Z rt (pixel im x y c)) (float_of_Z rt 255)
       | _ => float_nan rt
       end |}.

(** [transforms.Normalize(mean, std)] *)
Definition transforms_Normalize (mean std : list F) (t : Tensor) : Tensor :=
  {| shape := shape t;
     entry := fun idx =>
       match idx with
       | c :: _ =>
           match mean !! c, std !! c with
           | Some m, Some s => fdiv rt (fsub rt (entry t idx) m) s
           | _, _ => float_nan rt
           end
       | [] => float_nan rt
       end |}.

Definition transform (im : Image) : Tensor :=
  transforms_Normalize
    (map (float_lit rt) ["0.485"; "0.456"; "0.406"])
    (map (float_lit rt) ["0.229"; "0.224"; "0.225"])
    (transforms_ToTensor (transforms_Resize 224 224 im)).

(** [t.unsqueeze(0)] *)
Definition unsqueeze0 (t : Tensor) : Tensor :=
  {| shape := 1 :: shape t; entry := fun idx => entry t (tail idx) |}.

(** The samples of a batch. *)
Definition unbatch (t : Tensor) : list Tensor :=
  match shape t with
  | n :: s => map (fun i => {| shape := s;
                               entry := fun idx => entry t (i :: idx) |})
                  (seq 0 n)
  | [] => []
  end.

Fixpoint forward_each (samples : list Tensor) : Res (list (list F)) :=
  match samples with
  | [] => Ok []
  | s :: rest =>
      match forward rt s with
      | Ok logits =>
          match forward_each rest with
          | Ok rows => Ok (logits :: rows)
          | Raise e => Raise e
          end
      | Raise e => Raise e
      end
  end.

(** [model(tensor)]: a batch of samples in, one row of logits per sample
    out ([model.eval()] was called, so rows do not depend on each other). *)
Definition model (t : Tensor) : Res (list (list F)) :=
  forward_each (unbatch t).

(** [torch.softmax(output, dim=1)] *)
Definition torch_softmax_dim1 (output : list (list F)) : list (list F) :=
  map (softmax_row rt) output.

(** The first largest entry and its position, scanning from position [i]. *)
Fixpoint scan_max (best_i : nat) (best : F) (i : nat) (xs : list F)
  : nat * F :=
  match xs with
  | [] => (best_i, best)
  | x :: xs' =>
      if fgt rt x best then scan_max i x (S i) xs'
      else scan_max best_i best (S i) xs'
  end.

Definition empty_reduction : PyExc :=
  mkExc "RuntimeError" "cannot perform reduction on an empty tensor".

(** [t.argmax().item()]: the index into the flattened tensor. *)
Definition argmax_item (t : list (list F)) : Res nat :=
  match concat t with
  | [] => Raise empty_reduction
  | x :: xs => Ok (fst (scan_max 0 x 1 xs))
  end.

(** [t.max().item()] *)
Definition max_item (t : list (list F)) : Res F :=
  match concat t with
  | [] => Raise empty_reduction
  | x :: xs => Ok (snd (scan_max 0 x 1 xs))
  end.

(** The Python values [float(...)] is applied to: a float, or a list of
    floats. *)
Inductive PyVal :=
| PyFloat (x : F)
| PyList (xs : list F).

(** [t.tolist()] of a two-dimensional tensor: a list of lists of floats.
    The result is given as the items the outer list iterates over. *)
Definition tolist (t : list (list F)) : list PyVal :=
  map PyList t.

Definition float_of_list : PyExc :=
  mkExc "TypeError"
        "float() argument must be a string or a real number, not 'list'".

(** [float(v)] *)
Definition py_float (v : PyVal) : Res F :=
  match v with
  | PyFloat x => Ok x
  | PyList _ => Raise float_of_list
  end.

(** [{CLASS_LABELS[i]: float(prob) for i, prob in enumerate(items)}],
    continued from index [i] with the dict [d] built so far.  The key is
    evaluated before the value, as Python 3.8 and later do. *)
Fixpoint label_floats (i : nat) (items : list PyVal) (d : list (string * F))
  : Res (list (string * F)) :=
  match items with
  | [] => Ok d
  | prob :: rest =>
      match py_getitem CLASS_LABELS i with
      | Ok k =>
          match py_float prob with
          | Ok v => label_floats (S i) rest (dict_set d k v)
          | Raise e => Raise e
          end
      | Raise e => Raise e
      end
  end.

(** ** JSON *)

Definition dquote : string := String (ascii_of_nat 34) EmptyString.

Definition backslash : string := String (ascii_of_nat 92) EmptyString.

(** Escapes of the quote and the backslash.  The strings written below are
    labels of the tables above and an ISO timestamp. *)
Fixpoint json_escape (s : string) : string :=
  match s with
  | EmptyString => EmptyString
  | String c s' =>
      if Ascii.eqb c (ascii_of_nat 34) then backslash +:+ dquote +:+ json_escape s'
      else if Ascii.eqb c (ascii_of_nat 92) then backslash +:+ backslash +:+ json_escape s'
      else String c (json_escape s')
  end.

Definition json_str (s : string) : string :=
  dquote +:+ json_escape s +:+ dquote.

Definition json_member (k v : string) : string := json_str k +:+ ": " +:+ v.

Definition json_object (members : list string) : string :=
  "{" +:+ String.concat ", " members +:+ "}".

Definition json_floats (d : list (string * F)) : string :=
  json_object (map (fun kv => json_member (fst kv) (float_repr rt (snd kv))) d).

(** ** [predict_disaster] *)

Record UploadFile := mkUploadFile {
  filename : string;
  contents : list byte
}.

Record Prediction := mkPrediction {
  class_ : nat;
  class_name : string;
  severity : string;
  confidence : F;
  class_probabilities : list (string * F);
  timestamp : string
}.

(** [json.dumps(prediction)] *)
Definition json_dumps (p : Prediction) : string :=
  json_object
    [ json_member "class" (pretty (class_ p));
      json_member "class_name" (json_str (class_name p));
      json_member "severity" (json_str (severity p));
      json_member "confidence" (float_repr rt (confidence p));
      json_member "class_probabilities" (json_floats (class_probabilities p));
      json_member "timestamp" (json_str (timestamp p)) ].

(** Lines 93-114: from the upload to the [prediction] dict. *)
Definition build_prediction (file : UploadFile) : M Prediction :=
  let! image := lift (image_open rt (contents file)) in
  let tensor := unsqueeze0 (transform image) in
  let! output := lift (model tensor) in
  let probabilities := torch_softmax_dim1 output in
  let! predicted_class := lift (argmax_item probabilities) in
  let! conf := lift (max_item probabilities) in
  let! name := lift (py_getitem CLASS_LABELS predicted_class) in
  let! sev := lift (severity_of predicted_class) in
  let! probs := lift (label_floats 0 (tolist probabilities) []) in
  let! now := datetime_utcnow_isoformat in
  ret {| class_ := predicted_class; class_name := name; severity := sev;
         confidence := conf; class_probabilities := probs;
         timestamp := now |}.

(** Lines 116-121: the cache write, the log line and the [return]. *)
Definition cache_and_return (file : UploadFile) (prediction : Prediction)
  : M Prediction :=
  let cache_key := "prediction:" +:+ filename file in
  let! _ := redis_setex cache_key 3600 (json_dumps prediction) in
  let! name := lift (py_getitem CLASS_LABELS (class_ prediction)) in
  let! _ := logger_info ("Prediction: " +:+ filename file +:+ " -> " +:+ name) in
  ret prediction.

Definition predict_disaster (file : UploadFile)
  : World -> Outcome Prediction * World :=
  try_except_400 "Prediction error"
    (let! prediction := build_prediction file in
     cache_and_return file prediction).

(** ** [analyze_image] *)

Record ScaleObservation := mkScaleObservation {
  scale : nat;
  predictions : list (string * F)
}.

Record EnsemblePrediction := mkEnsemblePrediction {
  ensemble_class : nat;
  ensemble_class_name : string;
  ensemble_confidence : F
}.

Record EnsembleResult := mkEnsembleResult {
  analysis : list ScaleObservation;
  ensemble_prediction : EnsemblePrediction
}.

Definition scales : list nat := [224; 256; 384].

(** Lines 137-138: the tensor the network is run on for one scale. *)
Definition scale_tensor (image : Image) (scale : nat) : Tensor :=
  let resized := image_resize image scale scale in
  unsqueeze0 (transform resized).

(** Lines 136-150: the loop over the scales left to do, [results] being the
    list appended to so far. *)
Fixpoint analyze_scales (image : Image) (todo : list nat)
  (results : list ScaleObservation) : Res (list ScaleObservation) :=
  match todo with
  | [] => Ok results
  | scale :: todo' =>
      match model (scale_tensor image scale) with
      | Ok output =>
          let probabilities := torch_softmax_dim1 output in
          match label_floats 0 (tolist probabilities) [] with
          | Ok d =>
              analyze_scales image todo'
                (results ++ [{| scale := scale; predictions := d |}])
          | Raise e => Raise e
          end
      | Raise e => Raise e
      end
  end.

(** [np.mean(a, axis=0)] for a list [a] of dicts.  numpy turns [a] into an
    array of objects and sums it with Python's [+], which dicts do not have;
    a lone object is its own sum and is then divided by the count; the empty
    list is an empty float array, whose mean is the scalar nan.  So the
    result, when there is one, is a scalar. *)
Definition np_mean_axis0 (a : list (list (string * F))) : Res F :=
  match a with
  | [] => Ok (float_nan rt)
  | [_] =>
      Raise (mkExc "TypeError"
                   "unsupported operand type(s) for /: 'dict' and 'int'")
  | _ :: _ :: _ =>
      Raise (mkExc "TypeError"
                   "unsupported operand type(s) for +: 'dict' and 'dict'")
  end.

(** [np.argmax(x)] for a scalar [x] *)
Definition np_argmax (x : F) : nat := 0.

(** [x[i]] for a numpy scalar [x] *)
Definition np_getitem (x : F) (i : nat) : Res F :=
  Raise (mkExc "IndexError" "invalid index to scalar variable.").

(** Lines 152-162: the ensemble and the returned dict. *)
Definition ensemble (results : list ScaleObservation) : Res EnsembleResult :=
  match np_mean_axis0 (map predictions results) with
  | Ok ensemble_probs =>
      let predicted_class := np_argmax ensemble_probs in
      match py_getitem CLASS_LABELS predicted_class with
      | Ok name =>
          match np_getitem ensemble_probs predicted_class with
          | Ok conf =>
              Ok {| analysis := results;
                    ensemble_prediction :=
                      {| ensemble_class := predicted_class;
                         ensemble_class_name := name;
                         ensemble_confidence := conf |} |}
          | Raise e => Raise e
          end
      | Raise e => Raise e
      end
  | Raise e => Raise e
  end.

Definition analyze_image (file : UploadFile)
  : World -> Outcome EnsembleResult * World :=
  try_except_400 "Analysis error"
    (let! image := lift (image_open rt (contents file)) in
     let! results := lift (analyze_scales image scales []) in
     lift (ensemble results)).

End Service.

Arguments Tensor F : clear implicits.
Arguments Runtime F : clear implicits.
Arguments Prediction F : clear implicits.
Arguments ScaleObservation F : clear implicits.
Arguments EnsembleResult F : clear implicits.

(** ** A test double for the libraries

    Integers stand for floats, an upload decodes to a one-pixel image whose
    value is its first byte, and an empty upload is not an image. *)
Module Stub.

Definition not_an_image : PyExc :=
  mkExc "UnidentifiedImageError" "cannot identify image file".

Definition one_pixel (b : byte) : Image :=
  {| width := 1; height := 1; pixel := fun _ _ _ => Z.of_N (Byte.to_N b) |}.

Definition runtime : Runtime Z :=
  {| image_open := fun bs => match bs with
                             | [] => Raise not_an_image
                             | b :: _ => Ok (one_pixel b)
                             end;
     resample := fun _ im _ _ _ _ c => pixel im 0 0 c;
     float_of_Z := fun z => z;
     float_lit := fun _ => 1%Z;
     fsub := Z.sub;
     fdiv := Z.div;
     fgt := Z.gtb;
     float_nan := 0%Z;
     float_repr := pretty;
     forward := fun t => Ok [entry t [0; 0; 0]; 0%Z; 0%Z; 0%Z; 0%Z];
     softmax_row := fun row => row |}.

Definition world : World :=
  {| redis_fault := None; redis_db := ∅; log := [];
     utcnow := "2024-05-01T12:00:00" |}.

Definition connection_refused : PyExc :=
  mkExc "ConnectionError"
        "Error 111 connecting to localhost:6379. Connection refused.".

Definition world_without_redis : World :=
  {| redis_fault := Some connection_refused; redis_db := ∅; log := [];
     utcnow := "2024-05-01T12:00:00" |}.

Definition black : UploadFile :=
  {| filename := "a.jpg"; contents := [Byte.x00] |}.

Definition garbage : UploadFile :=
  {| filename := "a.jpg"; contents := [] |}.

End Stub.

(** ** Start of the process (lines 52-58 and 198-205) *)

Definition starts_with_slash (s : string) : bool :=
  match s with
  | String c _ => Ascii.eqb c "/"%char
  | EmptyString => false
  end.

Fixpoint ends_with_slash (s : string) : bool :=
  match s with
  | EmptyString => false
  | String c EmptyString => Ascii.eqb c "/"%char
  | String _ s' => ends_with_slash s'
  end.

(** [os.path.join(a, b)] on POSIX *)
Definition os_path_join (a b : string) : string :=
  if starts_with_slash b then b
  else if String.eqb a EmptyString || ends_with_slash a then a +:+ b
  else a +:+ "/" +:+ b.

(** [os.getenv(name, default)], given the value of the variable if set *)
Definition os_getenv (value : option string) (default : string) : string :=
  match value with
  | Some v => v
  | None => default
  end.

Definition model_path (MODEL_PATH : option string) : string :=
  os_path_join (os_getenv MODEL_PATH "./models") "disaster_classifier.pth".

(** Lines 54-58.  [load path] is what
    [model.load_state_dict(torch.load(path, map_location=device))] does.
    [except FileNotFoundError] is matched on the class of the exception
    (the class has no subclass in the standard library). *)
Definition load_weights (MODEL_PATH : option string)
    (load : string -> Res unit) : M unit :=
  fun w =>
    let path := model_path MODEL_PATH in
    match load path with
    | Ok _ => logger_info ("Model loaded from " +:+ path) w
    | Raise e =>
        if String.eqb (exc_class e) "FileNotFoundError"
        then (Ok tt,
              logger_write WARNING
                ("Model not found at " +:+ path +:+ ", using untrained weights")
                w)
        else (Raise e, w)
    end.

(** [redis_client.ping()] *)
Definition redis_ping : M unit :=
  fun w => match redis_fault w with
           | Some e => (Raise e, w)
           | None => (Ok tt, w)
           end.

(** The [startup] hook *)
Definition startup : M unit :=
  let! _ := logger_info "ML Service starting up..." in
  fun w => match redis_ping w with
           | (Ok _, w') => logger_info "Redis connected" w'
           | (Raise e, w') =>
               (Ok tt,
                logger_write ERROR ("Redis connection failed: " +:+ py_str e) w')
           end.

(** More test data: a network that fails on every sample, a weights file
    that cannot be read, a second upload and two predictions. *)
Module Fixture.

Definition out_of_memory : PyExc :=
  mkExc "RuntimeError" "CUDA out of memory.".

Definition failing_runtime : Runtime Z :=
  {| image_open := image_open Stub.runtime;
     resample := resample Stub.runtime;
     float_of_Z := float_of_Z Stub.runtime;
     float_lit := float_lit Stub.runtime;
     fsub := fsub Stub.runtime;
     fdiv := fdiv Stub.runtime;
     fgt := fgt Stub.runtime;
     float_nan := float_nan Stub.runtime;
     float_repr := float_repr Stub.runtime;
     forward := fun _ => Raise out_of_memory;
     softmax_row := softmax_row Stub.runtime |}.

Definition permission_denied : PyExc :=
  mkExc "PermissionError"
        "[Errno 13] Permission denied: './models/disaster_classifier.pth'".

Definition unreadable_weights (path : string) : Res unit :=
  Raise permission_denied.

Definition other : UploadFile :=
  {| filename := "b.jpg"; contents := [Byte.xff] |}.

Definition major_damage : Prediction Z :=
  {| class_ := 2; class_name := "Major Damage"; severity := "high";
     confidence := 7%Z;
     class_probabilities := [("No Damage", 1%Z); ("Major Damage", 7%Z)];
     timestamp := "2024-05-01T12:00:00" |}.

Definition destroyed : Prediction Z :=
  {| class_ := 3; class_name := "Destroyed"; severity := "critical";
     confidence := 9%Z;
     class_probabilities := [("Destroyed", 9%Z)];
     timestamp := "2024-05-01T12:00:05" |}.

End Fixture.

(** * Properties *)

Section Properties.

Context {F : Type} (rt : Runtime F).

(** ** The dict comprehension over a batch *)

(** On the items of a non-empty batch the comprehension applies [float] to
    the first row, which is a list. *)
Lemma label_floats_batch (row : list F) (rows : list (list F))
    (d : list (string * F)) :
  label_floats 0 (tolist (row :: rows)) d = Raise float_of_list.
Proof. reflexivity. Qed.

(** A batch made by [unsqueeze(0)] holds one sample, so the network
    answers with one row or with an exception. *)
Lemma model_batch_of_one (t : Tensor F) :
  (exists e, model rt (unsqueeze0 t) = Raise e)
  \/ (exists row, model rt (unsqueeze0 t) = Ok [row]).
Proof.
  unfold model, unbatch; cbn.
  destruct (forward rt _) as [row | e]; [right | left]; eauto.
Qed.

Lemma model_batch_length (t : Tensor F) (output : list (list F)) :
  model rt (unsqueeze0 t) = Ok output -> length output = 1.
Proof.
  intros H. destruct (model_batch_of_one t) as [[e He] | [row He]];
    rewrite He in H; inversion H; reflexivity.
Qed.

(** ** [argmax] stays inside the tensor *)

Lemma scan_max_index (xs : list F) :
  forall best_i best i,
    best_i < i -> fst (scan_max rt best_i best i xs) < i + length xs.
Proof.
  induction xs as [| x xs IH]; intros best_i best i Hlt; cbn.
  - lia.
  - destruct (fgt rt x best).
    + specialize (IH i x (S i)). lia.
    + specialize (IH best_i best (S i)). lia.
Qed.

Lemma argmax_item_bound (t : list (list F)) (i : nat) :
  argmax_item rt t = Ok i -> i < length (concat t).
Proof.
  unfold argmax_item. destruct (concat t) as [| x xs]; [discriminate |].
  intros H; inversion H; subst; clear H.
  pose proof (scan_max_index xs 0 x 1). cbn [length]. lia.
Qed.

Lemma argmax_item_nonempty (t : list (list F)) :
  concat t <> [] -> exists i, argmax_item rt t = Ok i.
Proof.
  unfold argmax_item. destruct (concat t); [congruence | eauto].
Qed.

Lemma max_item_nonempty (t : list (list F)) :
  concat t <> [] -> exists x, max_item rt t = Ok x.
Proof.
  unfold max_item. destruct (concat t); [congruence | eauto].
Qed.

Lemma class_label_defined (i : nat) :
  i < 5 -> exists name, py_getitem CLASS_LABELS i = Ok name.
Proof.
  intros H. do 5 (destruct i as [| i]; [cbn; eauto |]). lia.
Qed.

Lemma severity_defined (i : nat) :
  i < 5 -> exists s, severity_of i = Ok s.
Proof.
  intros H. do 5 (destruct i as [| i]; [vm_compute; eauto |]). lia.
Qed.

(** ** The [try] bodies *)

Lemma bind_lift {A B} (r : Res A) (k : A -> M B) (w : World) :
  bind (lift r) k w
  = match r with Ok a => k a w | Raise e => (Raise e, w) end.
Proof. reflexivity. Qed.

(** One statement of a [try] body that only computes: either it raises and
    the goal is closed, or the proof goes on with its value. *)
Ltac step_body :=
  rewrite !bind_lift;
  match goal with
  | |- context [match ?r with Ok _ => _ | Raise _ => _ end] =>
      destruct r; [| solve [eauto]]
  end.

(** [build_prediction] raises on every upload, before it touches the
    world, and the exception does not depend on the world. *)
Lemma build_prediction_raises (file : UploadFile) (w1 w2 : World) :
  exists e,
    build_prediction rt file w1 = (Raise e, w1)
    /\ build_prediction rt file w2 = (Raise e, w2).
Proof.
  unfold build_prediction; cbv zeta.
  step_body.
  rewrite !bind_lift.
  match goal with
  | |- context [model rt (unsqueeze0 ?t)] =>
      destruct (model_batch_of_one t) as [[e ->] | [row ->]]; [eauto |]
  end.
  cbn [torch_softmax_dim1 map].
  do 4 step_body.
  rewrite !bind_lift, label_floats_batch. eauto.
Qed.

(** On a decodable image with five class scores the exception is the
    [TypeError] of [float] on a list. *)
Lemma build_prediction_float_of_list (file : UploadFile) (w : World)
    (im : Image) (output : list (list F)) :
  image_open rt (contents file) = Ok im ->
  model rt (unsqueeze0 (transform rt im)) = Ok output ->
  length (concat (torch_softmax_dim1 rt output)) = 5 ->
  build_prediction rt file w = (Raise float_of_list, w).
Proof.
  intros Him Hout Hlen.
  destruct (model_batch_of_one (transform rt im)) as [[e He] | [row He]];
    rewrite He in Hout; inversion Hout; subst output; clear Hout.
  assert (Hne : concat (torch_softmax_dim1 rt [row]) <> [])
    by (intros Heq; rewrite Heq in Hlen; discriminate).
  destruct (argmax_item_nonempty _ Hne) as [i Hi].
  destruct (max_item_nonempty _ Hne) as [c Hc].
  pose proof (argmax_item_bound _ _ Hi) as Hb. rewrite Hlen in Hb.
  destruct (class_label_defined i Hb) as [name Hname].
  destruct (severity_defined i Hb) as [sev Hsev].
  unfold build_prediction; cbv zeta.
  rewrite bind_lift, Him, bind_lift, He.
  cbn [torch_softmax_dim1 map] in *.
  rewrite bind_lift, Hi, bind_lift, Hc, bind_lift, Hname, bind_lift, Hsev,
    bind_lift, label_floats_batch.
  reflexivity.
Qed.

Lemma predict_disaster_raises (file : UploadFile) (w1 w2 : World) :
  exists e,
    predict_disaster rt file w1
    = (HTTPException 400 (py_str e),
       logger_write ERROR ("Prediction error: " +:+ py_str e) w1)
    /\ predict_disaster rt file w2
      = (HTTPException 400 (py_str e),
         logger_write ERROR ("Prediction error: " +:+ py_str e) w2).
Proof.
  destruct (build_prediction_raises file w1 w2) as [e [H1 H2]].
  exists e. unfold predict_disaster, try_except_400, bind.
  rewrite H1, H2. split; reflexivity.
Qed.

(** Once reached with Redis up, lines 116-121 write the entry: the key is
    ["prediction:" + filename], the TTL 3600 and the value the JSON text. *)
Lemma cache_and_return_writes_entry (file : UploadFile)
    (prediction : Prediction F) (w : World) :
  redis_fault w = None ->
  class_ prediction < 5 ->
  fst (cache_and_return rt file prediction w) = Ok prediction
  /\ redis_db (snd (cache_and_return rt file prediction w))
     = <["prediction:" +:+ filename file := (3600%Z, json_dumps rt prediction)]>
         (redis_db w).
Proof.
  intros Hup Hclass.
  destruct (class_label_defined _ Hclass) as [name Hname].
  unfold cache_and_return, bind, redis_setex, lift, logger_info, ret.
  rewrite Hup, Hname. split; reflexivity.
Qed.

(** The loop over the scales stops in its first round. *)
Lemma analyze_scales_raises (image : Image) (scale : nat) (todo : list nat)
    (results : list (ScaleObservation F)) :
  exists e, analyze_scales rt image (scale :: todo) results = Raise e.
Proof.
  cbn [analyze_scales]. unfold scale_tensor.
  destruct (model_batch_of_one (transform rt (image_resize rt image scale scale)))
    as [[e ->] | [row ->]]; [eauto |].
  cbn [torch_softmax_dim1 map]. rewrite label_floats_batch. eauto.
Qed.

Lemma analyze_image_raises (file : UploadFile) (w : World) :
  exists e,
    analyze_image rt file w
    = (HTTPException 400 (py_str e),
       logger_write ERROR ("Analysis error: " +:+ py_str e) w).
Proof.
  unfold analyze_image, try_except_400. rewrite bind_lift.
  destruct (image_open rt (contents file)) as [im | e]; [| eauto].
  destruct (analyze_scales_raises im 224 [256; 384] []) as [e He].
  unfold scales. rewrite bind_lift, He. eauto.
Qed.

End Properties.

(** * The claims *)

(** C5.  Every request to either handler ends in an [HTTPException] with
    status 400 and never in a returned value: the dict comprehension
    enumerates the rows of the batch-shaped tensor, so on any batch that has
    a row it applies [float] to a list, which raises, and the [except]
    clause turns whatever was raised into the 400. *)
Theorem handlers_always_raise_400 {F : Type} (rt : Runtime F)
    (file : UploadFile) (w : World) :
  (exists detail,
      fst (predict_disaster rt file w) = HTTPException 400 detail)
  /\ (exists detail,
         fst (analyze_image rt file w) = HTTPException 400 detail)
  /\ (forall (t : Tensor F) (output : list (list F)),
         model rt (unsqueeze0 t) = Ok output ->
         label_floats 0 (tolist (torch_softmax_dim1 rt output)) []
         = Raise float_of_list).
Proof.
  split; [| split].
  - destruct (predict_disaster_raises rt file w w) as [e [H _]].
    rewrite H. eauto.
  - destruct (analyze_image_raises rt file w) as [e H].
    rewrite H. eauto.
  - intros t output Hout.
    destruct (model_batch_of_one rt t) as [[e He] | [row He]];
      rewrite He in Hout; inversion Hout; reflexivity.
Qed.

(** C1.  On a decodable image for which the network yields five class
    probabilities, [predict_disaster] returns no probability vector: it
    raises the 400 whose detail is the [TypeError] of [float] on a list. *)
Theorem predict_valid_image_raises_400 {F : Type} (rt : Runtime F)
    (file : UploadFile) (w : World) (im : Image) (output : list (list F)) :
  image_open rt (contents file) = Ok im ->
  model rt (unsqueeze0 (transform rt im)) = Ok output ->
  length (concat (torch_softmax_dim1 rt output)) = 5 ->
  fst (predict_disaster rt file w)
  = HTTPException 400 (py_str float_of_list).
Proof.
  intros Him Hout Hlen.
  unfold predict_disaster, try_except_400, bind.
  rewrite (build_prediction_float_of_list rt file w im output Him Hout Hlen).
  reflexivity.
Qed.

Lemma predict_valid_image_raises_400_witness :
  fst (predict_disaster Stub.runtime Stub.black Stub.world)
  = HTTPException 400
      "float() argument must be a string or a real number, not 'list'".
Proof.
  apply (predict_valid_image_raises_400 Stub.runtime Stub.black Stub.world
           (Stub.one_pixel Byte.x00) [[-1; 0; 0; 0; 0]%Z]);
    reflexivity.
Defined.

(** C2.  [predict_disaster] never returns a prediction, so no response
    carries a [confidence] or [class_probabilities] to compare. *)
Theorem predict_disaster_returns_nothing {F : Type} (rt : Runtime F)
    (file : UploadFile) (w : World) :
  returned_value (fst (predict_disaster rt file w)) = None.
Proof.
  destruct (predict_disaster_raises rt file w w) as [e [H _]].
  rewrite H. reflexivity.
Qed.

(** C3.  [analyze_image] never returns an ensemble; and the aggregation
    step, given the three observations of a finished loop, raises a
    [TypeError], because [np.mean] is handed the three [predictions] dicts. *)
Theorem analyze_image_returns_no_ensemble {F : Type} (rt : Runtime F)
    (file : UploadFile) (w : World) :
  returned_value (fst (analyze_image rt file w)) = None
  /\ forall r1 r2 r3 : ScaleObservation F,
       ensemble rt [r1; r2; r3]
       = Raise (mkExc "TypeError"
                  "unsupported operand type(s) for +: 'dict' and 'dict'").
Proof.
  split.
  - destruct (analyze_image_raises rt file w) as [e H].
    rewrite H. reflexivity.
  - reflexivity.
Qed.

(** C4.  The loop over the scales [224; 256; 384] raises in its first round:
    it ends with an exception and no list of observations, whatever the
    image. *)
Theorem analyze_scales_yields_no_observation {F : Type} (rt : Runtime F)
    (image : Image) (results : list (ScaleObservation F)) :
  exists e, analyze_scales rt image scales results = Raise e.
Proof. apply analyze_scales_raises. Qed.

(** C6.  When Redis cannot be reached, the cache write raises inside the
    [try]: from any built prediction, lines 116-125 end in the 400 that
    carries the Redis error, and the handler as a whole returns nothing. *)
Theorem cache_failure_fails_the_request {F : Type} (rt : Runtime F)
    (file : UploadFile) (w : World) (e : PyExc) :
  redis_fault w = Some e ->
  (forall prediction : Prediction F,
      fst (try_except_400 "Prediction error"
             (cache_and_return rt file prediction) w)
      = HTTPException 400 (py_str e))
  /\ returned_value (fst (predict_disaster rt file w)) = None.
Proof.
  intros Hfault. split.
  - intros prediction.
    unfold try_except_400, cache_and_return, bind, redis_setex.
    rewrite Hfault. reflexivity.
  - destruct (predict_disaster_raises rt file w w) as [e' [H _]].
    rewrite H. reflexivity.
Qed.

Lemma cache_failure_fails_the_request_witness :
  (forall prediction : Prediction Z,
      fst (try_except_400 "Prediction error"
             (cache_and_return Stub.runtime Stub.black prediction)
             Stub.world_without_redis)
      = HTTPException 400 (py_str Stub.connection_refused))
  /\ returned_value
       (fst (predict_disaster Stub.runtime Stub.black
               Stub.world_without_redis)) = None.
Proof.
  apply (cache_failure_fails_the_request Stub.runtime Stub.black
           Stub.world_without_redis Stub.connection_refused).
  reflexivity.
Defined.

(** C7.  [predict_disaster] leaves the Redis store as it found it: no entry
    is written under ["prediction:" + filename] or any other key. *)
Theorem predict_disaster_writes_no_cache_entry {F : Type} (rt : Runtime F)
    (file : UploadFile) (w : World) :
  redis_db (snd (predict_disaster rt file w)) = redis_db w.
Proof.
  destruct (predict_disaster_raises rt file w w) as [e [H _]].
  rewrite H. reflexivity.
Qed.

(** C8.  When the uploaded bytes do not decode as an image, both handlers
    raise an [HTTPException] with status 400 whose detail is the message of
    the decoder's exception; no other exception leaves them. *)
Theorem malformed_upload_raises_400 {F : Type} (rt : Runtime F)
    (file : UploadFile) (w : World) (e : PyExc) :
  image_open rt (contents file) = Raise e ->
  fst (predict_disaster rt file w) = HTTPException 400 (py_str e)
  /\ fst (analyze_image rt file w) = HTTPException 400 (py_str e).
Proof.
  intros Hopen.
  unfold predict_disaster, analyze_image, build_prediction, try_except_400.
  unfold bind at 1. rewrite !bind_lift, Hopen. split; reflexivity.
Qed.

Lemma malformed_upload_raises_400_witness :
  fst (predict_disaster Stub.runtime Stub.garbage Stub.world)
  = HTTPException 400 "cannot identify image file"
  /\ fst (analyze_image Stub.runtime Stub.garbage Stub.world)
     = HTTPException 400 "cannot identify image file".
Proof.
  apply (malformed_upload_raises_400 Stub.runtime Stub.garbage Stub.world
           Stub.not_an_image).
  reflexivity.
Defined.

(** C9.  Two calls of [predict_disaster] on the same upload end in the same
    [HTTPException], whatever the clock, the log and the store are at each
    call; neither returns a prediction. *)
Theorem predict_disaster_twice_same_400 {F : Type} (rt : Runtime F)
    (file : UploadFile) (w1 w2 : World) :
  fst (predict_disaster rt file w1) = fst (predict_disaster rt file w2)
  /\ returned_value (fst (predict_disaster rt file w1)) = None
  /\ returned_value (fst (predict_disaster rt file w2)) = None.
Proof.
  destruct (predict_disaster_raises rt file w1 w2) as [e [H1 H2]].
  rewrite H1, H2. repeat split; reflexivity.
Qed.

(** C10.  The tensor the network is run on has shape 1 x 3 x 224 x 224 at
    every scale: [transform] resizes to 224 x 224 after the image was
    resized to [scale] x [scale]. *)
Theorem scale_tensor_shape {F : Type} (rt : Runtime F)
    (image : Image) (scale : nat) :
  shape (scale_tensor rt image scale) = [1; 3; 224; 224]
  /\ width (image_resize rt image scale scale) = scale
  /\ height (image_resize rt image scale scale) = scale.
Proof. repeat split; reflexivity. Qed.

(** * Further properties of the handlers and of the start of the process *)

Section MoreProperties.

Context {F : Type} (rt : Runtime F).


(** The exact result of lines 116-121 when Redis answers. *)
Lemma cache_and_return_ok (file : UploadFile) (prediction : Prediction F)
    (w : World) (name : string) :
  redis_fault w = None ->
  CLASS_LABELS !! class_ prediction = Some name ->
  cache_and_return rt file prediction w
  = (Ok prediction,
     {| redis_fault := None;
        redis_db := <["prediction:" +:+ filename file
                      := (3600%Z, json_dumps rt prediction)]> (redis_db w);
        log := (log w ++ [(INFO, "Prediction: " +:+ filename file
                                  +:+ " -> " +:+ name)])%list;
        utcnow := utcnow w |}).
Proof.
  intros Hup Hname.
  unfold cache_and_return, bind, redis_setex, lift, logger_info, ret,
    py_getitem.
  rewrite Hup, Hname. reflexivity.
Qed.

Lemma class_label_lookup (i : nat) :
  i < 5 -> exists name, CLASS_LABELS !! i = Some name.
Proof.
  intros H. do 5 (destruct i as [| i]; [cbn; eauto |]). lia.
Qed.

Lemma cache_key_inj (a b : string) :
  "prediction:" +:+ a = "prediction:" +:+ b -> a = b.
Proof. cbn. intros H. injection H. trivial. Qed.

End MoreProperties.

(** X1.  Whatever is uploaded, each handler appends exactly one ERROR line
    to the log, made of its prefix and the detail of the [HTTPException] it
    raises, and changes nothing else in the world. *)
Theorem handlers_log_their_error {F : Type} (rt : Runtime F)
    (file : UploadFile) (w : World) :
  (exists detail,
      predict_disaster rt file w
      = (HTTPException 400 detail,
         {| redis_fault := redis_fault w; redis_db := redis_db w;
            log := (log w ++ [(ERROR, "Prediction error: " +:+ detail)])%list;
            utcnow := utcnow w |}))
  /\ (exists detail,
         analyze_image rt file w
         = (HTTPException 400 detail,
            {| redis_fault := redis_fault w; redis_db := redis_db w;
               log := (log w ++ [(ERROR, "Analysis error: " +:+ detail)])%list;
               utcnow := utcnow w |})).
Proof.
  split.
  - destruct (predict_disaster_raises rt file w w) as [e [H _]].
    exists (py_str e). exact H.
  - destruct (analyze_image_raises rt file w) as [e H].
    exists (py_str e). exact H.
Qed.

(** X2.  When the image decodes and the network raises [e] on it,
    [predict_disaster] raises the 400 whose detail is [str(e)]. *)
Theorem predict_inference_failure_raises_400 {F : Type} (rt : Runtime F)
    (file : UploadFile) (w : World) (im : Image) (e : PyExc) :
  image_open rt (contents file) = Ok im ->
  model rt (unsqueeze0 (transform rt im)) = Raise e ->
  fst (predict_disaster rt file w) = HTTPException 400 (py_str e).
Proof.
  intros Him Hmodel.
  unfold predict_disaster, try_except_400, build_prediction; cbv zeta.
  unfold bind at 1. rewrite bind_lift, Him, bind_lift, Hmodel. reflexivity.
Qed.

Lemma predict_inference_failure_raises_400_witness :
  fst (predict_disaster Fixture.failing_runtime Stub.black Stub.world)
  = HTTPException 400 "CUDA out of memory.".
Proof.
  apply (predict_inference_failure_raises_400 Fixture.failing_runtime
           Stub.black Stub.world (Stub.one_pixel Byte.x00)
           Fixture.out_of_memory);
    reflexivity.
Defined.

(** X3.  On an image that decodes, the answer of [analyze_image] is decided
    at the first scale: the detail is [str(e)] when the network raises [e]
    on the 224 tensor, and the [TypeError] of [float] on a list otherwise.
    The scales 256 and 384 play no part. *)
Theorem analyze_decided_by_first_scale {F : Type} (rt : Runtime F)
    (file : UploadFile) (w : World) (im : Image) :
  image_open rt (contents file) = Ok im ->
  fst (analyze_image rt file w)
  = HTTPException 400
      match model rt (scale_tensor rt im 224) with
      | Ok _ => py_str float_of_list
      | Raise e => py_str e
      end.
Proof.
  intros Him.
  unfold analyze_image, try_except_400.
  rewrite bind_lift, Him, bind_lift.
  unfold scales. cbn [analyze_scales]. unfold scale_tensor; cbv zeta.
  destruct (model_batch_of_one rt
              (transform rt (image_resize rt im 224 224)))
    as [[e ->] | [row ->]]; reflexivity.
Qed.

Lemma analyze_decided_by_first_scale_witness :
  fst (analyze_image Stub.runtime Stub.black Stub.world)
  = HTTPException 400
      "float() argument must be a string or a real number, not 'list'"
  /\ fst (analyze_image Fixture.failing_runtime Stub.black Stub.world)
     = HTTPException 400 "CUDA out of memory.".
Proof.
  split.
  - apply (analyze_decided_by_first_scale Stub.runtime Stub.black Stub.world
             (Stub.one_pixel Byte.x00)).
    reflexivity.
  - apply (analyze_decided_by_first_scale Fixture.failing_runtime Stub.black
             Stub.world (Stub.one_pixel Byte.x00)).
    reflexivity.
Defined.


(** X5.  The two tables cover the same class indices: an index below 5 has
    both a label and a severity; any other index has neither, [CLASS_LABELS]
    raising [IndexError] and [SEVERITY_MAPPING] a [KeyError] on it. *)
Theorem labels_and_severities_agree (i : nat) :
  (i < 5 ->
   exists name s, py_getitem CLASS_LABELS i = Ok name /\ severity_of i = Ok s)
  /\ (5 <= i ->
      py_getitem CLASS_LABELS i = Raise IndexError
      /\ severity_of i = Raise (mkExc "KeyError" (pretty i))).
Proof.
  split.
  - intros H. do 5 (destruct i as [| i]; [vm_compute; eauto |]). lia.
  - intros H. split.
    + unfold py_getitem. rewrite lookup_ge_None_2; [reflexivity |].
      cbn. lia.
    + unfold severity_of, SEVERITY_MAPPING.
      rewrite !lookup_insert_ne by lia. rewrite lookup_empty. reflexivity.
Qed.

(** X6.  Given floats, as a row of probabilities would be, the dict
    comprehension pairs them with the labels in order: up to five floats
    give one entry each, a sixth raises [IndexError]; given nothing it is
    the empty dict. *)
Theorem label_floats_of_floats {F : Type} (row : list F) :
  (length row <= 5 ->
   label_floats 0 (map PyFloat row) [] = Ok (zip CLASS_LABELS row))
  /\ (5 < length row ->
      label_floats 0 (map PyFloat row) [] = Raise IndexError).
Proof.
  split; intros H.
  - do 6 (destruct row as [| ? row]; [reflexivity |]). cbn in H. lia.
  - do 6 (destruct row as [| ? row]; [cbn in H; lia |]). reflexivity.
Qed.

(** X7.  Lines 116-121, reached with a prediction whose class has a label
    and with Redis answering, return the prediction as it is; a read of
    ["prediction:" + filename] then finds its JSON text with TTL 3600, and
    every other key reads as before. *)
Theorem cache_write_round_trip {F : Type} (rt : Runtime F)
    (file : UploadFile) (prediction : Prediction F) (w : World) :
  redis_fault w = None ->
  class_ prediction < 5 ->
  fst (cache_and_return rt file prediction w) = Ok prediction
  /\ redis_db (snd (cache_and_return rt file prediction w))
       !! ("prediction:" +:+ filename file)
     = Some (3600%Z, json_dumps rt prediction)
  /\ forall key : string,
       key <> "prediction:" +:+ filename file ->
       redis_db (snd (cache_and_return rt file prediction w)) !! key
       = redis_db w !! key.
Proof.
  intros Hup Hclass.
  destruct (class_label_lookup _ Hclass) as [name Hname].
  rewrite (cache_and_return_ok rt file prediction w name Hup Hname).
  cbn [fst snd redis_db]. split; [reflexivity | split].
  - apply lookup_insert_eq.
  - intros key Hkey. apply lookup_insert_ne. congruence.
Qed.

Lemma cache_write_round_trip_witness :
  fst (cache_and_return Stub.runtime Stub.black Fixture.major_damage
         Stub.world) = Ok Fixture.major_damage
  /\ redis_db (snd (cache_and_return Stub.runtime Stub.black
                      Fixture.major_damage Stub.world))
       !! ("prediction:" +:+ filename Stub.black)
     = Some (3600%Z, json_dumps Stub.runtime Fixture.major_damage)
  /\ forall key : string,
       key <> "prediction:" +:+ filename Stub.black ->
       redis_db (snd (cache_and_return Stub.runtime Stub.black
                        Fixture.major_damage Stub.world)) !! key
       = redis_db Stub.world !! key.
Proof.
  apply (cache_write_round_trip Stub.runtime Stub.black Fixture.major_damage
           Stub.world).
  - reflexivity.
  - cbn. lia.
Defined.

(** X8.  The cache key is made of the filename alone: when lines 116-121 run
    for two uploads that share a filename, the store ends as if only the
    second had run, the entry of the first being overwritten. *)
Theorem same_filename_overwrites_cache_entry {F : Type} (rt : Runtime F)
    (file1 file2 : UploadFile) (p1 p2 : Prediction F) (w : World) :
  redis_fault w = None ->
  class_ p1 < 5 ->
  class_ p2 < 5 ->
  filename file1 = filename file2 ->
  redis_db (snd (cache_and_return rt file2 p2
                   (snd (cache_and_return rt file1 p1 w))))
  = redis_db (snd (cache_and_return rt file2 p2 w)).
Proof.
  intros Hup H1 H2 Hname.
  destruct (class_label_lookup _ H1) as [n1 Hn1].
  destruct (class_label_lookup _ H2) as [n2 Hn2].
  rewrite (cache_and_return_ok rt file1 p1 w n1 Hup Hn1). cbn [snd].
  rewrite (cache_and_return_ok rt file2 p2 (mkWorld None _ _ _) n2 eq_refl Hn2).
  rewrite (cache_and_return_ok rt file2 p2 w n2 Hup Hn2).
  cbn [snd redis_db]. rewrite Hname. apply insert_insert_eq.
Qed.

Lemma same_filename_overwrites_cache_entry_witness :
  redis_db (snd (cache_and_return Stub.runtime Stub.garbage Fixture.destroyed
                   (snd (cache_and_return Stub.runtime Stub.black
                           Fixture.major_damage Stub.world))))
  = redis_db (snd (cache_and_return Stub.runtime Stub.garbage
                     Fixture.destroyed Stub.world)).
Proof.
  apply (same_filename_overwrites_cache_entry Stub.runtime Stub.black
           Stub.garbage Fixture.major_damage Fixture.destroyed Stub.world).
  - reflexivity.
  - cbn. lia.
  - cbn. lia.
  - reflexivity.
Defined.

(** X9.  When lines 116-121 run for two uploads with different filenames,
    both entries are in the store afterwards, each under its own key. *)
Theorem distinct_filenames_keep_both_entries {F : Type} (rt : Runtime F)
    (file1 file2 : UploadFile) (p1 p2 : Prediction F) (w : World) :
  redis_fault w = None ->
  class_ p1 < 5 ->
  class_ p2 < 5 ->
  filename file1 <> filename file2 ->
  redis_db (snd (cache_and_return rt file2 p2
                   (snd (cache_and_return rt file1 p1 w))))
    !! ("prediction:" +:+ filename file1)
  = Some (3600%Z, json_dumps rt p1)
  /\ redis_db (snd (cache_and_return rt file2 p2
                      (snd (cache_and_return rt file1 p1 w))))
       !! ("prediction:" +:+ filename file2)
     = Some (3600%Z, json_dumps rt p2).
Proof.
  intros Hup H1 H2 Hne.
  destruct (class_label_lookup _ H1) as [n1 Hn1].
  destruct (class_label_lookup _ H2) as [n2 Hn2].
  rewrite (cache_and_return_ok rt file1 p1 w n1 Hup Hn1). cbn [snd].
  rewrite (cache_and_return_ok rt file2 p2 (mkWorld None _ _ _) n2 eq_refl Hn2).
  cbn [snd redis_db]. split.
  - rewrite lookup_insert_ne.
    + apply lookup_insert_eq.
    + intros Heq. apply Hne. symmetry. exact (cache_key_inj _ _ Heq).
  - apply lookup_insert_eq.
Qed.

Lemma distinct_filenames_keep_both_entries_witness :
  redis_db (snd (cache_and_return Stub.runtime Fixture.other Fixture.destroyed
                   (snd (cache_and_return Stub.runtime Stub.black
                           Fixture.major_damage Stub.world))))
    !! ("prediction:" +:+ filename Stub.black)
  = Some (3600%Z, json_dumps Stub.runtime Fixture.major_damage)
  /\ redis_db (snd (cache_and_return Stub.runtime Fixture.other
                      Fixture.destroyed
                      (snd (cache_and_return Stub.runtime Stub.black
                              Fixture.major_damage Stub.world))))
       !! ("prediction:" +:+ filename Fixture.other)
     = Some (3600%Z, json_dumps Stub.runtime Fixture.destroyed).
Proof.
  apply (distinct_filenames_keep_both_entries Stub.runtime Stub.black
           Fixture.other Fixture.major_damage Fixture.destroyed Stub.world).
  - reflexivity.
  - cbn. lia.
  - cbn. lia.
  - discriminate.
Defined.

(** X10.  Loading the weights forgives a missing file and nothing else: on
    [FileNotFoundError] the process goes on after one WARNING line that names
    the path; any other exception of the load leaves the module, with nothing
    logged. *)
Theorem load_weights_forgives_only_missing_file
    (MODEL_PATH : option string) (load : string -> Res unit) (w : World)
    (e : PyExc) :
  load (model_path MODEL_PATH) = Raise e ->
  (exc_class e = "FileNotFoundError" ->
   load_weights MODEL_PATH load w
   = (Ok tt,
      logger_write WARNING
        ("Model not found at " +:+ model_path MODEL_PATH
         +:+ ", using untrained weights") w))
  /\ (exc_class e <> "FileNotFoundError" ->
      load_weights MODEL_PATH load w = (Raise e, w)).
Proof.
  intros Hload. unfold load_weights; cbv zeta. rewrite Hload. split.
  - intros Hclass. rewrite Hclass. reflexivity.
  - intros Hclass. apply String.eqb_neq in Hclass. rewrite Hclass.
    reflexivity.
Qed.

Lemma load_weights_forgives_only_missing_file_witness :
  (exc_class Fixture.permission_denied = "FileNotFoundError" ->
   load_weights None Fixture.unreadable_weights Stub.world
   = (Ok tt,
      logger_write WARNING
        ("Model not found at " +:+ model_path None
         +:+ ", using untrained weights") Stub.world))
  /\ (exc_class Fixture.permission_denied <> "FileNotFoundError" ->
      load_weights None Fixture.unreadable_weights Stub.world
      = (Raise Fixture.permission_denied, Stub.world)).
Proof.
  apply (load_weights_forgives_only_missing_file None
           Fixture.unreadable_weights Stub.world Fixture.permission_denied).
  reflexivity.
Defined.

(** X11.  The [startup] hook never raises, whether Redis answers the ping or
    not: it leaves the store as it is and appends two log lines, the second
    being ["Redis connected"] or, at ERROR level, the failure of the ping. *)
Theorem startup_swallows_redis_failure (w : World) :
  fst (startup w) = Ok tt
  /\ redis_db (snd (startup w)) = redis_db w
  /\ redis_fault (snd (startup w)) = redis_fault w
  /\ log (snd (startup w))
     = (log w ++
        [ (INFO, "ML Service starting up...");
          match redis_fault w with
          | None => (INFO, "Redis connected")
          | Some e => (ERROR, "Redis connection failed: " +:+ py_str e)
          end ])%list.
Proof.
  unfold startup, bind, logger_info, redis_ping, logger_write; cbn.
  destruct (redis_fault w) as [e |]; cbn; rewrite <- app_assoc;
    repeat split; reflexivity.
Qed.
